(** * powerbi-models: validators, error normalisation and filter classes

    A shallow embedding of [src/models.ts].  JavaScript values are an
    inductive type, plain objects are finite maps from property names to
    values, the error records that [normalizeError] mutates live in a store
    indexed by locations, and a constructor that may [throw] returns a
    completion. *)

From stdpp Require Import gmap strings list fin_maps pretty.

Open Scope string_scope.

(** ** JavaScript values *)

(** Numbers carry an integer payload: the modelled code never computes with
    a number, it only tests its type and prints it inside messages. *)
#[warnings="-register-all"]
Inductive JsValue : Type :=
  | VUndefined
  | VNull
  | VBool (b : bool)
  | VNum (n : Z)
  | VStr (s : string)
  | VArr (elems : list JsValue)
  | VObj (props : gmap string JsValue).

(** [typeof v] *)
Definition typeof (v : JsValue) : string :=
  match v with
  | VUndefined => "undefined"
  | VNull => "object"
  | VBool _ => "boolean"
  | VNum _ => "number"
  | VStr _ => "string"
  | VArr _ => "object"
  | VObj _ => "object"
  end.

(** [Array.isArray(v)] *)
Definition isArray (v : JsValue) : bool :=
  match v with
  | VArr _ => true
  | _ => false
  end.

(** [v === undefined] *)
Definition is_undefined (v : JsValue) : bool :=
  match v with
  | VUndefined => true
  | _ => false
  end.

(** ToBoolean, the test behind [!v] and [if (v)]. *)
Definition truthy (v : JsValue) : bool :=
  match v with
  | VUndefined | VNull => false
  | VBool b => b
  | VNum n => negb (n =? 0)%Z
  | VStr s => negb (String.eqb s "")
  | VArr _ | VObj _ => true
  end.

(** ToString, the conversion a template literal applies to [${v}].  An
    array prints its elements joined by commas, with [null] and
    [undefined] elements printed as nothing.  The text is the one
    JavaScript prints for strings, booleans, [null], [undefined], integers
    below 2^53 in magnitude, objects without a [toString] property of
    their own, and arrays of such values ([ToString_exact] below); a larger
    number is printed by JavaScript with rounded digits or an exponent,
    and an object whose own [toString] is not a function makes the
    conversion throw a TypeError, neither of which is modelled. *)
Fixpoint ToString (v : JsValue) : string :=
  match v with
  | VUndefined => "undefined"
  | VNull => "null"
  | VBool true => "true"
  | VBool false => "false"
  | VNum n => pretty n
  | VStr s => s
  | VArr elems =>
      String.concat ","
        (map (fun e => match e with
                       | VUndefined | VNull => ""
                       | _ => ToString e
                       end) elems)
  | VObj _ => "[object Object]"
  end.

(** [o.k] on a plain object: an absent property reads as [undefined]. *)
Definition get (o : gmap string JsValue) (k : string) : JsValue :=
  default VUndefined (o !! k).

(** [a[i]] on an array: an index out of range reads as [undefined]. *)
Definition index (a : list JsValue) (i : nat) : JsValue :=
  default VUndefined (a !! i).

(** ** Completions: a value returned, or an [Error] thrown *)

Inductive Completion (A : Type) : Type :=
  | Normal (a : A)
  | Throw (message : string).

Arguments Normal {A} a.
Arguments Throw {A} message.

Definition Completion_map {A B : Type} (f : A -> B) (c : Completion A)
  : Completion B :=
  match c with
  | Normal a => Normal (f a)
  | Throw m => Throw m
  end.

(** ** The store of mutable records *)

Definition loc : Type := positive.

(** A computation that reads and writes the store. *)
Definition State (A : Type) : Type :=
  gmap loc (gmap string JsValue) -> A * gmap loc (gmap string JsValue).

#[global] Instance State_ret : MRet State := fun A a σ => (a, σ).
#[global] Instance State_bind : MBind State :=
  fun A B f m σ => let '(a, σ') := m σ in f a σ'.
#[global] Instance State_fmap : FMap State :=
  fun A B f m σ => let '(a, σ') := m σ in (f a, σ').

(** [r.k]: a location always denotes an object; outside the store it reads
    as an object without properties. *)
Definition get_prop (r : loc) (k : string) : State JsValue :=
  fun σ => (get (default ∅ (σ !! r)) k, σ).

(** [r.k = v] *)
Definition set_prop (r : loc) (k : string) (v : JsValue) : State unit :=
  fun σ => (tt, alter (insert k v) r σ).

(** [delete r.k] *)
Definition delete_prop (r : loc) (k : string) : State unit :=
  fun σ => (tt, alter (delete k) r σ).

(** ** Error normalisation *)

(** [function normalizeError(error: IValidationError): IError] *)
Definition normalizeError (error : loc) : State loc :=
  message ← get_prop error "message";
  (if negb (truthy message) then
     path ← get_prop error "path";
     keyword ← get_prop error "keyword";
     set_prop error "message"
       (VStr (ToString path +:+ " is invalid. Not meeting "
              +:+ ToString keyword +:+ " constraint"))
   else mret tt);;
  delete_prop error "path";;
  delete_prop error "keyword";;
  mret error.

(** What [normalizeError] does to the properties of the record it is
    given. *)
Definition normalizeError_props (error : gmap string JsValue)
  : gmap string JsValue :=
  let error' :=
    if negb (truthy (get error "message")) then
      <["message" :=
          VStr (ToString (get error "path") +:+ " is invalid. Not meeting "
                +:+ ToString (get error "keyword") +:+ " constraint")]> error
    else error in
  delete "keyword" (delete "path" error').

(** ** The validator factory *)

Section Validate.

(** The [jsen] package compiles a schema and its options to a validator;
    applying that validator to [x] gives a verdict and leaves the
    records of the failures it found in [validate.errors].  The package
    is an external dependency. *)
Variable jsen : JsValue -> JsValue -> JsValue -> State (bool * list loc).

(** [function validate(schema: any, options?: any)] *)
Definition validate (schema options : JsValue)
  : JsValue -> State (option (list loc)) :=
  fun x =>
    '(isValid, errors) ← jsen schema options x;
    if isValid : bool then mret None
    else Some <$> mapM normalizeError errors.

(** The schema documents are read from [./schemas/*.json]. *)
Variables advancedFilterSchema filterSchema filtersContainerSchema
  loadSchema pageSchema pageTargetSchema settingsSchema targetSchema
  basicFilterSchema visualTargetSchema : JsValue.

(** The object literal [{ schemas: { ... } }]. *)
Definition schemas_option (schemas : list (string * JsValue)) : JsValue :=
  VObj {[ "schemas" := VObj (list_to_map schemas) ]}.

Definition validateSettings : JsValue -> State (option (list loc)) :=
  validate settingsSchema
    (schemas_option [("basicFilter", basicFilterSchema);
                     ("advancedFilter", advancedFilterSchema)]).

Definition validateLoad : JsValue -> State (option (list loc)) :=
  validate loadSchema
    (schemas_option [("settings", settingsSchema);
                     ("basicFilter", basicFilterSchema);
                     ("advancedFilter", advancedFilterSchema)]).

Definition validateTarget : JsValue -> State (option (list loc)) :=
  validate targetSchema
    (schemas_option [("pageTarget", pageTargetSchema);
                     ("visualTarget", visualTargetSchema)]).

Definition validatePage : JsValue -> State (option (list loc)) :=
  validate pageSchema VUndefined.

Definition validateFiltersContainer : JsValue -> State (option (list loc)) :=
  validate filtersContainerSchema
    (schemas_option [("target", targetSchema);
                     ("pageTarget", pageTargetSchema);
                     ("visualTarget", visualTargetSchema);
                     ("filter", filterSchema);
                     ("basicFilter", basicFilterSchema);
                     ("advancedFilter", advancedFilterSchema)]).

Definition validateFilter : JsValue -> State (option (list loc)) :=
  validate filterSchema
    (schemas_option [("basicFilter", basicFilterSchema);
                     ("advancedFilter", advancedFilterSchema)]).

End Validate.

(** ** Filter targets and filter kinds *)

(** [enum FilterType { Advanced, Basic, Unknown }] *)
Inductive FilterType : Type :=
  | Advanced
  | Basic
  | Unknown.

(** [function getFilterType(filter: IFilter): FilterType] *)
Definition getFilterType (filter : gmap string JsValue) : FilterType :=
  let basicFilter := filter in
  let advancedFilter := filter in
  if String.eqb (typeof (get basicFilter "operator")) "string"
     && isArray (get basicFilter "values")
  then Basic
  else if String.eqb (typeof (get advancedFilter "logicalOperator")) "string"
          && isArray (get advancedFilter "conditions")
  then Advanced
  else Unknown.

(** [function isMeasure(arg: any): arg is IFilterMeasureTarget] *)
Definition isMeasure (arg : gmap string JsValue) : bool :=
  negb (is_undefined (get arg "table"))
  && negb (is_undefined (get arg "measure")).

(** [function isColumn(arg: any): arg is IFilterColumnTarget] *)
Definition isColumn (arg : gmap string JsValue) : bool :=
  negb (is_undefined (get arg "table"))
  && negb (is_undefined (get arg "column")).

(** [function isHierarchy(arg: any): arg is IFilterHierarchyTarget] *)
Definition isHierarchy (arg : gmap string JsValue) : bool :=
  negb (is_undefined (get arg "table"))
  && negb (is_undefined (get arg "hierarchy"))
  && negb (is_undefined (get arg "hierarchyLevel")).

(** ** The filter classes *)

(** [abstract class Filter] *)
Module Filter.

Record t : Type := mk {
  schemaUrl : JsValue;
  target : JsValue
}.

(** [toJSON(): IFilter] *)
Definition toJSON (this : t) : gmap string JsValue :=
  <["target" := target this]> (<["$schema" := schemaUrl this]> ∅).

End Filter.

(** [class BasicFilter extends Filter] *)
Module BasicFilter.

Definition schemaUrl : string := "http://powerbi.com/product/schema#basic".

Record t : Type := mk {
  super : Filter.t;
  operator : JsValue;
  values : JsValue
}.

(** [constructor(target, operator, ...values)]; [values] is the array of
    the rest arguments. *)
Definition new (target operator : JsValue) (values : list JsValue)
  : Completion t :=
  if (length values =? 0)%nat then
    Throw ("values must be a non-empty array. You passed: "
           +:+ ToString (VArr values))
  else
    Normal
      {| super := {| Filter.target := target;
                     Filter.schemaUrl := VStr schemaUrl |};
         operator := operator;
         values := if isArray (index values 0) then index values 0
                   else VArr values |}.

(** [toJSON(): IBasicFilter] *)
Definition toJSON (this : t) : gmap string JsValue :=
  let filter := Filter.toJSON (super this) in
  let filter := <["operator" := operator this]> filter in
  let filter := <["values" := values this]> filter in
  filter.

End BasicFilter.

(** [class AdvancedFilter extends Filter] *)
Module AdvancedFilter.

Definition schemaUrl : string :=
  "http://powerbi.com/product/schema#advanced".

Record t : Type := mk {
  super : Filter.t;
  logicalOperator : JsValue;
  conditions : JsValue
}.

(** [typeof logicalOperator !== "string" || logicalOperator.length === 0] *)
Definition invalid_logicalOperator (logicalOperator : JsValue) : bool :=
  negb (String.eqb (typeof logicalOperator) "string")
  || match logicalOperator with
     | VStr s => (String.length s =? 0)%nat
     | _ => false
     end.

(** [constructor(target, logicalOperator, ...conditions)]; [conditions]
    is the array of the rest arguments. *)
Definition new (target logicalOperator : JsValue)
    (conditions : list JsValue) : Completion t :=
  if invalid_logicalOperator logicalOperator then
    Throw ("logicalOperator must be a valid operator, You passed: "
           +:+ ToString logicalOperator)
  else if (length conditions =? 0)%nat then
    Throw ("conditions must be a non-empty array. You passed: "
           +:+ ToString (VArr conditions))
  else if (2 <? length conditions)%nat then
    Throw ("AdvancedFilters may not have more than two conditions. You passed: "
           +:+ pretty (length conditions))
  else
    Normal
      {| super := {| Filter.target := target;
                     Filter.schemaUrl := VStr schemaUrl |};
         logicalOperator := logicalOperator;
         conditions := if isArray (index conditions 0)
                       then index conditions 0
                       else VArr conditions |}.

(** [toJSON(): IAdvancedFilter] *)
Definition toJSON (this : t) : gmap string JsValue :=
  let filter := Filter.toJSON (super this) in
  let filter := <["logicalOperator" := logicalOperator this]> filter in
  let filter := <["conditions" := conditions this]> filter in
  filter.

End AdvancedFilter.

(** ** The declared shapes of the payloads *)

(** [(string | number | boolean)] *)
Definition isPrimitive (v : JsValue) : bool :=
  match v with
  | VStr _ | VNum _ | VBool _ => true
  | _ => false
  end.

(** [type AdvancedFilterConditionOperators] *)
Definition AdvancedFilterConditionOperators : list string :=
  ["None"; "LessThan"; "LessThanOrEqual"; "GreaterThan";
   "GreaterThanOrEqual"; "Contains"; "DoesNotContain"; "StartsWith";
   "DoesNotStartWith"; "Is"; "IsNot"; "IsBlank"; "IsNotBlank"].

(** [interface IAdvancedFilterCondition] *)
Definition isAdvancedFilterCondition (v : JsValue) : bool :=
  match v with
  | VObj c =>
      isPrimitive (get c "value")
      && match get c "operator" with
         | VStr op => bool_decide (op ∈ AdvancedFilterConditionOperators)
         | _ => false
         end
  | _ => false
  end.

(** * Vocabulary of the properties *)

Definition IsString (v : JsValue) : Prop := ∃ s, v = VStr s.
Definition IsArray (v : JsValue) : Prop := ∃ a, v = VArr a.
Definition IsDefined (v : JsValue) : Prop := v ≠ VUndefined.

Definition BasicShape (filter : gmap string JsValue) : Prop :=
  IsString (get filter "operator") ∧ IsArray (get filter "values").

Definition AdvancedShape (filter : gmap string JsValue) : Prop :=
  IsString (get filter "logicalOperator")
  ∧ IsArray (get filter "conditions").

(** The message [normalizeError] writes when the record has none. *)
Definition synthesized (path keyword : JsValue) : JsValue :=
  VStr (ToString path +:+ " is invalid. Not meeting "
        +:+ ToString keyword +:+ " constraint").

(** A raw failure record as [interface IValidationError] declares it, with
    the message left out when the schema gives none. *)
Definition IValidationError (path keyword : string) (message : option string)
  : gmap string JsValue :=
  let error := <["path" := VStr path]> (<["keyword" := VStr keyword]> ∅) in
  match message with
  | Some m => <["message" := VStr m]> error
  | None => error
  end.

Arguments IValidationError : simpl never.

(** What [validate] relies on from the evaluator: a verdict of failure comes
    with at least one failure record. *)
Definition reports_failures
    (jsen : JsValue -> JsValue -> JsValue -> State (bool * list loc)) : Prop :=
  ∀ schema options x σ, (jsen schema options x σ).1.1 = false →
                        (jsen schema options x σ).1.2 ≠ [].

(** The two results a validator may give: [undefined], or an array that is
    not empty. *)
Definition undefined_or_nonempty (result : option (list loc)) : Prop :=
  match result with
  | None => True
  | Some errors => errors ≠ []
  end.

(** An evaluator that only knows the rule [{type: "object"}]: it accepts
    objects and reports one failure, in a fresh record, for anything
    else. *)
Definition object_evaluator (schema options x : JsValue)
  : State (bool * list loc) :=
  fun σ =>
    match x with
    | VObj _ => ((true, []), σ)
    | _ =>
        let r := fresh (dom σ) in
        ((false, [r]), <[r := IValidationError "" "type" None]> σ)
    end.

(** The filter a successful [new BasicFilter(...)] holds. *)
Definition basic_filter (target operator values : JsValue) : BasicFilter.t :=
  {| BasicFilter.super :=
       {| Filter.schemaUrl := VStr BasicFilter.schemaUrl;
          Filter.target := target |};
     BasicFilter.operator := operator;
     BasicFilter.values := values |}.

(** The filter a successful [new AdvancedFilter(...)] holds. *)
Definition advanced_filter (target logicalOperator conditions : JsValue)
  : AdvancedFilter.t :=
  {| AdvancedFilter.super :=
       {| Filter.schemaUrl := VStr AdvancedFilter.schemaUrl;
          Filter.target := target |};
     AdvancedFilter.logicalOperator := logicalOperator;
     AdvancedFilter.conditions := conditions |}.

(** The payload a constructor settles on: the first rest argument when it
    is an array, the array of all rest arguments otherwise. *)
Definition resolved (rest : list JsValue) : JsValue :=
  if isArray (index rest 0) then index rest 0 else VArr rest.

Definition NonEmptyString (v : JsValue) : Prop := ∃ s, v = VStr s ∧ s ≠ "".

Definition throws {A : Type} (c : Completion A) : Prop :=
  ∃ message, c = Throw message.

(** The declared shapes of a filter target: an object carrying exactly
    the properties its interface lists, each a string. *)
Definition IFilterColumnTarget (arg : gmap string JsValue) : Prop :=
  dom arg = {["table"; "column"]}
  ∧ IsString (get arg "table") ∧ IsString (get arg "column").

Definition IFilterMeasureTarget (arg : gmap string JsValue) : Prop :=
  dom arg = {["table"; "measure"]}
  ∧ IsString (get arg "table") ∧ IsString (get arg "measure").

Definition IFilterHierarchyTarget (arg : gmap string JsValue) : Prop :=
  dom arg = {["table"; "hierarchy"; "hierarchyLevel"]}
  ∧ IsString (get arg "table") ∧ IsString (get arg "hierarchy")
  ∧ IsString (get arg "hierarchyLevel").

(** The values on which [ToString] gives the text JavaScript prints. *)
Fixpoint ToString_exact (v : JsValue) : bool :=
  match v with
  | VUndefined | VNull | VBool _ | VStr _ => true
  | VNum n => (Z.abs n <? 9007199254740992)%Z
  | VArr elems => forallb ToString_exact elems
  | VObj props => bool_decide (props !! "toString" = None)
  end.

(** An evaluator whose verdict is always failure and that reports no
    record. *)
Definition silent_evaluator (schema options x : JsValue)
  : State (bool * list loc) :=
  fun σ => ((false, []), σ).

(** An evaluator that reports the one record it finds at location 1 twice
    over. *)
Definition repeating_evaluator (schema options x : JsValue)
  : State (bool * list loc) :=
  fun σ => ((false, [1%positive; 1%positive]), σ).

(** * Properties *)

(** ** Reading the tests on values *)

Lemma typeof_string_iff (v : JsValue) :
  String.eqb (typeof v) "string" = true ↔ IsString v.
Proof.
  unfold IsString. destruct v; simpl; split;
    try discriminate; try (intros [? ?]; discriminate); eauto.
Qed.

Lemma isArray_iff (v : JsValue) : isArray v = true ↔ IsArray v.
Proof.
  unfold IsArray. destruct v; simpl; split;
    try discriminate; try (intros [? ?]; discriminate); eauto.
Qed.

Lemma is_undefined_iff (v : JsValue) :
  negb (is_undefined v) = true ↔ IsDefined v.
Proof.
  unfold IsDefined. destruct v; simpl; split; try done.
Qed.

Lemma get_insert_eq (o : gmap string JsValue) (k : string) (v : JsValue) :
  get (<[k := v]> o) k = v.
Proof. unfold get. by rewrite lookup_insert_eq. Qed.

Lemma get_insert_ne (o : gmap string JsValue) (k k' : string) (v : JsValue) :
  k ≠ k' → get (<[k := v]> o) k' = get o k'.
Proof. intros Hne. unfold get. by rewrite lookup_insert_ne. Qed.

Lemma get_delete_ne (o : gmap string JsValue) (k k' : string) :
  k ≠ k' → get (delete k o) k' = get o k'.
Proof. intros Hne. unfold get. by rewrite lookup_delete_ne. Qed.

Lemma get_delete_eq (o : gmap string JsValue) (k : string) :
  get (delete k o) k = VUndefined.
Proof. unfold get. by rewrite lookup_delete_eq. Qed.

Lemma get_empty (k : string) : get ∅ k = VUndefined.
Proof. unfold get. by rewrite lookup_empty. Qed.

(** Reads a property off an object written as a chain of assignments. *)
Ltac read_props :=
  repeat first
    [ rewrite get_insert_eq
    | rewrite get_insert_ne by done
    | rewrite get_empty ].

(** ** Classifying a filter *)

Lemma basic_test_iff (filter : gmap string JsValue) :
  String.eqb (typeof (get filter "operator")) "string"
  && isArray (get filter "values") = true ↔ BasicShape filter.
Proof.
  unfold BasicShape.
  rewrite andb_true_iff, typeof_string_iff, isArray_iff. done.
Qed.

Lemma advanced_test_iff (filter : gmap string JsValue) :
  String.eqb (typeof (get filter "logicalOperator")) "string"
  && isArray (get filter "conditions") = true ↔ AdvancedShape filter.
Proof.
  unfold AdvancedShape.
  rewrite andb_true_iff, typeof_string_iff, isArray_iff. done.
Qed.

(** [getFilterType] reads four properties and nothing else. *)
Lemma getFilterType_ext (filter filter' : gmap string JsValue) :
  (∀ k, k ≠ "$schema" → get filter' k = get filter k) →
  getFilterType filter' = getFilterType filter.
Proof. intros Hk. unfold getFilterType. by rewrite !Hk. Qed.

Lemma getFilterType_cases (filter : gmap string JsValue) :
  (BasicShape filter ∧ getFilterType filter = Basic)
  ∨ (¬ BasicShape filter ∧ AdvancedShape filter
     ∧ getFilterType filter = Advanced)
  ∨ (¬ BasicShape filter ∧ ¬ AdvancedShape filter
     ∧ getFilterType filter = Unknown).
Proof.
  assert (Hb := basic_test_iff filter).
  assert (Ha := advanced_test_iff filter).
  unfold getFilterType.
  destruct (String.eqb (typeof (get filter "operator")) "string"
            && isArray (get filter "values")).
  - left. tauto.
  - destruct (String.eqb (typeof (get filter "logicalOperator")) "string"
              && isArray (get filter "conditions")).
    + right; left. split_and!; [ | tauto | done].
      intros Hbasic. apply Hb in Hbasic. discriminate.
    + right; right. split_and!; [ | | done].
      * intros Hbasic. apply Hb in Hbasic. discriminate.
      * intros Hadv. apply Ha in Hadv. discriminate.
Qed.

(** C7.  [getFilterType] answers [Basic] exactly for an object whose
    [operator] is a string and whose [values] is an array; failing that,
    [Advanced] exactly when [logicalOperator] is a string and [conditions]
    an array; failing both, [Unknown].  An object of both shapes is
    [Basic], and the [$schema] property has no influence: setting it to
    any value or deleting it leaves the answer unchanged. *)
Theorem getFilterType_classifies (filter : gmap string JsValue) :
  (getFilterType filter = Basic ↔ BasicShape filter)
  ∧ (getFilterType filter = Advanced
     ↔ ¬ BasicShape filter ∧ AdvancedShape filter)
  ∧ (getFilterType filter = Unknown
     ↔ ¬ BasicShape filter ∧ ¬ AdvancedShape filter)
  ∧ (BasicShape filter ∧ AdvancedShape filter
     → getFilterType filter = Basic)
  ∧ (∀ v, getFilterType (<["$schema" := v]> filter) = getFilterType filter)
  ∧ getFilterType (delete "$schema" filter) = getFilterType filter.
Proof.
  split_and!.
  - destruct (getFilterType_cases filter) as [[? E]|[[? [? E]]|[? [? E]]]];
      rewrite E; split; try done; tauto.
  - destruct (getFilterType_cases filter) as [[? E]|[[? [? E]]|[? [? E]]]];
      rewrite E; split; try done; tauto.
  - destruct (getFilterType_cases filter) as [[? E]|[[? [? E]]|[? [? E]]]];
      rewrite E; split; try done; tauto.
  - destruct (getFilterType_cases filter) as [[? E]|[[? [? E]]|[? [? E]]]];
      rewrite E; try done; tauto.
  - intros v. apply getFilterType_ext. intros k Hk.
    by apply get_insert_ne.
  - apply getFilterType_ext. intros k Hk. by apply get_delete_ne.
Qed.

Lemma getFilterType_classifies_witness :
  let both : gmap string JsValue :=
    <["operator" := VStr "In"]> (<["values" := VArr []]>
      (<["logicalOperator" := VStr "And"]> (<["conditions" := VArr []]> ∅))) in
  BasicShape both ∧ AdvancedShape both ∧ getFilterType both = Basic.
Proof.
  intros both.
  assert (Hb : BasicShape both).
  { split; [exists "In" | exists []]; reflexivity. }
  assert (Ha : AdvancedShape both).
  { split; [exists "And" | exists []]; reflexivity. }
  refine (conj Hb (conj Ha _)).
  destruct (getFilterType_classifies both) as (_ & _ & _ & Hboth & _).
  exact (Hboth (conj Hb Ha)).
Defined.

(** ** Classifying a filter target *)

(** C8.  [isMeasure] holds exactly when [table] and [measure] are both
    defined, [isColumn] exactly when [table] and [column] are, and
    [isHierarchy] exactly when [table], [hierarchy] and [hierarchyLevel]
    are.  No predicate looks at the properties that belong to another one,
    and one object can satisfy all three. *)
Theorem target_predicates_independent (arg : gmap string JsValue) :
  (isMeasure arg = true
   ↔ IsDefined (get arg "table") ∧ IsDefined (get arg "measure"))
  ∧ (isColumn arg = true
     ↔ IsDefined (get arg "table") ∧ IsDefined (get arg "column"))
  ∧ (isHierarchy arg = true
     ↔ IsDefined (get arg "table") ∧ IsDefined (get arg "hierarchy")
       ∧ IsDefined (get arg "hierarchyLevel"))
  ∧ (∀ v, isMeasure (<["column" := v]> arg) = isMeasure arg
          ∧ isMeasure (<["hierarchy" := v]> arg) = isMeasure arg
          ∧ isMeasure (<["hierarchyLevel" := v]> arg) = isMeasure arg)
  ∧ (∀ v, isColumn (<["measure" := v]> arg) = isColumn arg
          ∧ isColumn (<["hierarchy" := v]> arg) = isColumn arg
          ∧ isColumn (<["hierarchyLevel" := v]> arg) = isColumn arg)
  ∧ (∀ v, isHierarchy (<["measure" := v]> arg) = isHierarchy arg
          ∧ isHierarchy (<["column" := v]> arg) = isHierarchy arg)
  ∧ (∃ both : gmap string JsValue,
       isMeasure both = true ∧ isColumn both = true
       ∧ isHierarchy both = true).
Proof.
  unfold isMeasure, isColumn, isHierarchy.
  repeat split;
    rewrite ?andb_true_iff, ?is_undefined_iff in *;
    rewrite ?get_insert_ne by done; try tauto.
  exists (<["table" := VStr "t"]> (<["measure" := VStr "m"]>
           (<["column" := VStr "c"]> (<["hierarchy" := VStr "h"]>
           (<["hierarchyLevel" := VStr "l"]> ∅))))).
  by vm_compute.
Qed.

(** ** Error normalisation *)

(** Running [normalizeError] returns the location it was given and rewrites
    the record at that location, and only that record. *)
Lemma normalizeError_run (error : loc) (σ : gmap loc (gmap string JsValue)) :
  normalizeError error σ = (error, alter normalizeError_props error σ).
Proof.
  unfold normalizeError, normalizeError_props, get_prop, set_prop,
    delete_prop, mbind, State_bind, mret, State_ret.
  destruct (σ !! error) as [o|] eqn:Hσ; simpl.
  - destruct (truthy (get o "message")) eqn:Ht; simpl;
      rewrite !alter_alter_eq; f_equal;
      apply map_eq; intros r; rewrite !lookup_alter;
      case_decide; subst; rewrite ?Hσ; simpl; rewrite ?Ht; done.
  - assert (Hno : ∀ f : gmap string JsValue → gmap string JsValue,
               alter f error σ = σ).
    { intros f. apply map_eq. intros r. rewrite lookup_alter.
      case_decide; subst; by rewrite ?Hσ. }
    destruct (truthy (get ∅ "message")); simpl; by rewrite !Hno.
Qed.

Lemma normalizeError_props_falsy (o : gmap string JsValue) :
  truthy (get o "message") = false →
  normalizeError_props o
  = delete "keyword" (delete "path"
      (<["message" := synthesized (get o "path") (get o "keyword")]> o)).
Proof. intros H. unfold normalizeError_props, synthesized. by rewrite H. Qed.

Lemma normalizeError_props_truthy (o : gmap string JsValue) :
  truthy (get o "message") = true →
  normalizeError_props o = delete "keyword" (delete "path" o).
Proof. intros H. unfold normalizeError_props. by rewrite H. Qed.

Lemma IValidationError_lookup (p k : string) (message : option string)
    (key : string) :
  IValidationError p k message !! key
  = if decide (key = "message") then VStr <$> message
    else if decide (key = "path") then Some (VStr p)
    else if decide (key = "keyword") then Some (VStr k)
    else None.
Proof.
  unfold IValidationError.
  destruct message as [m|]; repeat case_decide; subst; simpl;
    rewrite ?lookup_insert_eq; try done;
    rewrite ?lookup_insert_ne by done;
    rewrite ?lookup_insert_eq; try done;
    rewrite ?lookup_insert_ne by done;
    rewrite ?lookup_insert_eq; try done;
    rewrite ?lookup_insert_ne by done; done.
Qed.

Lemma IValidationError_get (p k : string) (message : option string) :
  get (IValidationError p k message) "message"
  = from_option VStr VUndefined message
  ∧ get (IValidationError p k message) "path" = VStr p
  ∧ get (IValidationError p k message) "keyword" = VStr k.
Proof.
  unfold get. rewrite !IValidationError_lookup.
  by destruct message.
Qed.

Lemma normalizeError_props_IValidationError (p k : string)
    (message : option string) :
  normalizeError_props (IValidationError p k message)
  = {[ "message" :=
         match message with
         | Some m => if String.eqb m "" then synthesized (VStr p) (VStr k)
                     else VStr m
         | None => synthesized (VStr p) (VStr k)
         end ]}.
Proof.
  destruct (IValidationError_get p k message) as (Hm & Hp & Hk).
  assert (Ht : truthy (get (IValidationError p k message) "message")
               = match message with
                 | Some m => negb (String.eqb m "")
                 | None => false
                 end).
  { rewrite Hm. by destruct message. }
  apply map_eq. intros key.
  unfold normalizeError_props. rewrite Ht, Hp, Hk.
  destruct (decide (key = "keyword")) as [->|];
    [by rewrite lookup_delete_eq|].
  destruct (decide (key = "path")) as [->|];
    [by rewrite lookup_delete_ne, lookup_delete_eq|].
  rewrite !lookup_delete_ne by done.
  destruct (decide (key = "message")) as [->|].
  - rewrite lookup_singleton_eq.
    destruct message as [m|]; simpl.
    + destruct (String.eqb m ""); simpl.
      * by rewrite lookup_insert_eq.
      * rewrite IValidationError_lookup. done.
    + by rewrite lookup_insert_eq.
  - rewrite lookup_singleton_ne by done.
    assert (Hnone : IValidationError p k message !! key = None).
    { rewrite IValidationError_lookup. by repeat case_decide. }
    destruct message as [m|]; simpl;
      [destruct (String.eqb m ""); simpl|];
      rewrite ?lookup_insert_ne by done; done.
Qed.

(** C10.  [normalizeError] works in place: it returns the location it was
    given, allocates nothing, leaves every other record alone, and the
    record at that location loses [path] and [keyword].  Any falsy
    [message] is replaced by the synthesized one, a truthy one is kept; in
    particular a record whose message is the empty string ends up exactly
    like the same record with no message at all. *)
Theorem normalizeError_in_place_falsy_message
    (error : loc) (σ : gmap loc (gmap string JsValue))
    (o : gmap string JsValue) :
  σ !! error = Some o →
  (normalizeError error σ).1 = error
  ∧ dom (normalizeError error σ).2 = dom σ
  ∧ (∀ r, r ≠ error → (normalizeError error σ).2 !! r = σ !! r)
  ∧ (∃ o', (normalizeError error σ).2 !! error = Some o'
           ∧ o' !! "path" = None
           ∧ o' !! "keyword" = None
           ∧ (∀ k, k ≠ "path" → k ≠ "keyword" → k ≠ "message" →
                   o' !! k = o !! k)
           ∧ (truthy (get o "message") = false →
              o' !! "message"
              = Some (synthesized (get o "path") (get o "keyword")))
           ∧ (truthy (get o "message") = true →
              o' !! "message" = o !! "message"))
  ∧ normalizeError error (<[error := <["message" := VStr ""]> o]> σ)
    = normalizeError error (<[error := delete "message" o]> σ).
Proof.
  intros Hσ. rewrite !normalizeError_run. simpl. split_and!.
  - done.
  - apply dom_alter_L.
  - intros r Hr. by rewrite lookup_alter_ne.
  - exists (normalizeError_props o). split_and!.
    + by rewrite lookup_alter_eq, Hσ.
    + unfold normalizeError_props.
      by rewrite lookup_delete_ne, lookup_delete_eq.
    + unfold normalizeError_props. by rewrite lookup_delete_eq.
    + intros k Hp Hk Hm. unfold normalizeError_props.
      rewrite !lookup_delete_ne by done.
      destruct (negb _); [by rewrite lookup_insert_ne|done].
    + intros Ht. rewrite normalizeError_props_falsy by done.
      by rewrite !lookup_delete_ne, lookup_insert_eq.
    + intros Ht. rewrite normalizeError_props_truthy by done.
      by rewrite !lookup_delete_ne.
  - f_equal. rewrite !alter_insert_eq. f_equal.
    rewrite !normalizeError_props_falsy.
    + rewrite insert_insert_eq, insert_delete_eq.
      by rewrite !get_insert_ne, !get_delete_ne.
    + by rewrite get_delete_eq.
    + by rewrite get_insert_eq.
Qed.

Lemma normalizeError_in_place_falsy_message_witness :
  let σ : gmap loc (gmap string JsValue) :=
    {[ 1%positive := IValidationError "/id" "type" (Some "") ]} in
  σ !! 1%positive = Some (IValidationError "/id" "type" (Some ""))
  ∧ (normalizeError 1%positive σ).1 = 1%positive.
Proof.
  simpl. split.
  - apply lookup_singleton_eq.
  - apply (normalizeError_in_place_falsy_message 1%positive
             {[ 1%positive := IValidationError "/id" "type" (Some "") ]}
             (IValidationError "/id" "type" (Some ""))).
    apply lookup_singleton_eq.
Defined.

(** C4, as stated, fails on an empty override: the record
    [{path: "/id", keyword: "type", message: ""}] supplies a message, and
    the normalised record carries the synthesized text instead of it. *)
Lemma normalizeError_empty_override_replaced :
  let raw := IValidationError "/id" "type" (Some "") in
  let σ : gmap loc (gmap string JsValue) := {[ 1%positive := raw ]} in
  raw !! "message" = Some (VStr "")
  ∧ (normalizeError 1%positive σ).2 !! 1%positive
    = Some {[ "message" :=
                VStr "/id is invalid. Not meeting type constraint" ]}
  ∧ (normalizeError 1%positive σ).2 !! 1%positive
    ≠ Some {[ "message" := VStr "" ]}.
Proof.
  simpl.
  assert (E : (normalizeError 1%positive
                 {[ 1%positive := IValidationError "/id" "type" (Some "") ]}).2
              !! 1%positive
              = Some {[ "message" :=
                     VStr "/id is invalid. Not meeting type constraint" ]}).
  { rewrite normalizeError_run. simpl.
    rewrite lookup_alter_eq, lookup_singleton_eq. simpl.
    by rewrite normalizeError_props_IValidationError. }
  split_and!.
  - by rewrite IValidationError_lookup.
  - exact E.
  - rewrite E. intros Hmaps.
    assert (Hl := f_equal
              (λ r : option (gmap string JsValue), r ≫= (.!! "message"))
              Hmaps).
    simpl in Hl. rewrite !lookup_singleton_eq in Hl. discriminate.
Qed.

(** C4, amended.  For a raw record with a path, a rule kind and an optional
    message, the normalised record is the one at the same location, its
    only property is [message], a non-empty override is kept verbatim, and
    an absent or empty one gives
    "<path> is invalid. Not meeting <ruleKind> constraint". *)
Theorem normalizeError_message_only
    (error : loc) (σ : gmap loc (gmap string JsValue))
    (p k : string) (message : option string) :
  σ !! error = Some (IValidationError p k message) →
  ∃ o', normalizeError error σ = (error, <[error := o']> σ)
        ∧ dom o' = {["message"]}
        ∧ (∀ m, message = Some m → m ≠ "" →
                o' !! "message" = Some (VStr m))
        ∧ (message = None ∨ message = Some "" →
           o' !! "message"
           = Some (VStr (p +:+ " is invalid. Not meeting "
                         +:+ k +:+ " constraint"))).
Proof.
  intros Hσ. eexists. split_and!.
  - rewrite normalizeError_run. f_equal.
    rewrite <- (insert_id σ error _ Hσ) at 1.
    rewrite alter_insert_eq, normalizeError_props_IValidationError.
    reflexivity.
  - apply dom_singleton_L.
  - intros m -> Hm. rewrite lookup_singleton_eq.
    apply String.eqb_neq in Hm. by rewrite Hm.
  - intros [-> | ->]; by rewrite lookup_singleton_eq.
Qed.

Lemma normalizeError_message_only_witness :
  let σ : gmap loc (gmap string JsValue) :=
    {[ 1%positive := IValidationError "/id" "required" (Some "id is required") ]} in
  σ !! 1%positive
  = Some (IValidationError "/id" "required" (Some "id is required"))
  ∧ ∃ o', normalizeError 1%positive σ = (1%positive, <[1%positive := o']> σ)
          ∧ dom o' = {["message"]}
          ∧ (∀ m, Some "id is required" = Some m → m ≠ "" →
                  o' !! "message" = Some (VStr m))
          ∧ (Some "id is required" = None ∨ Some "id is required" = Some "" →
             o' !! "message"
             = Some (VStr ("/id" +:+ " is invalid. Not meeting "
                           +:+ "required" +:+ " constraint"))).
Proof.
  intros σ. split.
  - apply lookup_singleton_eq.
  - apply (normalizeError_message_only 1%positive σ "/id" "required"
             (Some "id is required")).
    apply lookup_singleton_eq.
Defined.

(** ** The validator factory *)

(** [errors.map(normalizeError)] normalises the records from left to right
    and collects the very same locations. *)
Lemma map_normalizeError (errors : list loc)
    (σ : gmap loc (gmap string JsValue)) :
  mapM normalizeError errors σ
  = (errors, foldl (λ σ r, alter normalizeError_props r σ) σ errors).
Proof.
  revert σ. induction errors as [|r errors IH]; intros σ; [done|].
  simpl. unfold mbind, State_bind at 1.
  rewrite normalizeError_run.
  unfold mbind, State_bind at 1. rewrite IH. done.
Qed.

Section ValidateProperties.

Variable jsen : JsValue -> JsValue -> JsValue -> State (bool * list loc).

(** [validate] returns [undefined] exactly on a verdict of success, and
    otherwise the evaluator's own failure records, normalised. *)
Lemma validate_run (schema options x : JsValue)
    (σ : gmap loc (gmap string JsValue)) :
  validate jsen schema options x σ
  = let '((isValid, errors), σ') := jsen schema options x σ in
    if isValid : bool then (None, σ')
    else (Some errors,
          foldl (λ σ r, alter normalizeError_props r σ) σ' errors).
Proof.
  unfold validate, mbind, State_bind.
  destruct (jsen schema options x σ) as [[isValid errors] σ'].
  destruct isValid; [done|].
  unfold fmap, State_fmap. by rewrite map_normalizeError.
Qed.

Hypothesis jsen_reports : reports_failures jsen.

Lemma validate_undefined_or_nonempty (schema options x : JsValue)
    (σ : gmap loc (gmap string JsValue)) :
  undefined_or_nonempty (validate jsen schema options x σ).1.
Proof.
  rewrite validate_run.
  specialize (jsen_reports schema options x σ).
  destruct (jsen schema options x σ) as [[isValid errors] σ'].
  destruct isValid; simpl in *; [done|]. by apply jsen_reports.
Qed.

End ValidateProperties.




(** The toy evaluator at work: a number fails the load validator with one
    error, whose message is the synthesized one. *)
Example validateLoad_on_a_number :
  validateLoad object_evaluator VNull VNull VNull VNull (VNum 1) ∅
  = (Some [1%positive],
     {[ 1%positive :=
          {[ "message" := VStr " is invalid. Not meeting type constraint" ]} ]}).
Proof. reflexivity. Qed.

Example validateLoad_on_an_object :
  validateLoad object_evaluator VNull VNull VNull VNull (VObj ∅) ∅
  = (None, ∅).
Proof. reflexivity. Qed.

(** ** Constructing filters *)

Lemma invalid_logicalOperator_iff (logicalOperator : JsValue) :
  AdvancedFilter.invalid_logicalOperator logicalOperator = false
  ↔ NonEmptyString logicalOperator.
Proof.
  unfold AdvancedFilter.invalid_logicalOperator, NonEmptyString.
  destruct logicalOperator as [| | | |s| |]; simpl;
    try (split; [discriminate | intros (? & ? & ?); discriminate]).
  destruct s as [|c s]; simpl.
  - split; [discriminate | intros (s & [= <-] & Hs); done].
  - split; [intros _; by eexists | done].
Qed.

(** [new BasicFilter] throws exactly when no rest argument is passed. *)
Lemma BasicFilter_new_cases (target operator : JsValue)
    (values : list JsValue) :
  (values = [] ∧ throws (BasicFilter.new target operator values))
  ∨ (values ≠ []
     ∧ BasicFilter.new target operator values
       = Normal (basic_filter target operator (resolved values))).
Proof.
  unfold BasicFilter.new. destruct values as [|v values]; simpl.
  - left. split; [done | by eexists].
  - right. done.
Qed.

(** [new AdvancedFilter] throws exactly when the logical operator is not a
    non-empty string, or no rest argument is passed, or more than two. *)
Lemma AdvancedFilter_new_cases (target logicalOperator : JsValue)
    (conditions : list JsValue) :
  ((¬ NonEmptyString logicalOperator ∨ conditions = []
    ∨ 2 < length conditions)
   ∧ throws (AdvancedFilter.new target logicalOperator conditions))
  ∨ (NonEmptyString logicalOperator
     ∧ (1 ≤ length conditions ≤ 2)%nat
     ∧ AdvancedFilter.new target logicalOperator conditions
       = Normal (advanced_filter target logicalOperator
                   (resolved conditions))).
Proof.
  unfold AdvancedFilter.new.
  destruct (AdvancedFilter.invalid_logicalOperator logicalOperator) eqn:Hlo.
  { left. split; [|by eexists]. left. intros Hne.
    apply invalid_logicalOperator_iff in Hne. congruence. }
  apply invalid_logicalOperator_iff in Hlo.
  destruct conditions as [|c1 [|c2 [|c3 conditions]]]; simpl.
  - left. split; [|by eexists]. right; left. done.
  - right. split_and!; [done | lia | lia | done].
  - right. split_and!; [done | lia | lia | done].
  - left. split; [|by eexists]. right; right. lia.
Qed.

(** C2: the code at the input that breaks the claim.
    [new BasicFilter({table: "t", column: "c"}, "In", [])] does not throw;
    it returns a filter whose [values] is the empty array. *)
Theorem BasicFilter_new_empty_array :
  BasicFilter.new
    (VObj (<["table" := VStr "t"]> (<["column" := VStr "c"]> ∅)))
    (VStr "In") [VArr []]
  = Normal
      (basic_filter
         (VObj (<["table" := VStr "t"]> (<["column" := VStr "c"]> ∅)))
         (VStr "In") (VArr [])).
Proof. reflexivity. Qed.

(** C3: the code at the input that breaks the claim.
    [new AdvancedFilter(target, "And", [c1, c2, c3])] does not throw; it
    returns a filter holding the three conditions. *)
Theorem AdvancedFilter_new_three_in_array (target c1 c2 c3 : JsValue) :
  AdvancedFilter.new target (VStr "And") [VArr [c1; c2; c3]]
  = Normal (advanced_filter target (VStr "And") (VArr [c1; c2; c3])).
Proof. reflexivity. Qed.

(** C9.  Both constructors test the array of rest arguments, not the
    payload they then settle on: [new BasicFilter] throws exactly when
    there is no rest argument, [new AdvancedFilter] (given a non-empty
    string as logical operator) exactly when there is none or more than
    two.  A single array argument therefore always passes, whatever its
    length, and becomes the filter's [values] or [conditions]: a
    BasicFilter can hold no value, an AdvancedFilter no condition or more
    than two. *)
Theorem guards_test_rest_arguments
    (target operator logicalOperator : JsValue)
    (rest payload : list JsValue) :
  NonEmptyString logicalOperator →
  (throws (BasicFilter.new target operator rest) ↔ rest = [])
  ∧ (throws (AdvancedFilter.new target logicalOperator rest)
     ↔ rest = [] ∨ 2 < length rest)
  ∧ BasicFilter.new target operator [VArr payload]
    = Normal (basic_filter target operator (VArr payload))
  ∧ AdvancedFilter.new target logicalOperator [VArr payload]
    = Normal (advanced_filter target logicalOperator (VArr payload))
  ∧ Completion_map BasicFilter.values
      (BasicFilter.new target operator [VArr []])
    = Normal (VArr [])
  ∧ Completion_map AdvancedFilter.conditions
      (AdvancedFilter.new target logicalOperator [VArr payload])
    = Normal (VArr payload).
Proof.
  intros Hop.
  assert (Hadv : AdvancedFilter.new target logicalOperator [VArr payload]
                 = Normal (advanced_filter target logicalOperator
                             (VArr payload))).
  { destruct (AdvancedFilter_new_cases target logicalOperator
                [VArr payload]) as [[Hc Ht] | (_ & _ & E)]; [|done].
    destruct Hc as [? | [? | ?]]; [done | done | simpl in *; lia]. }
  split_and!.
  - destruct (BasicFilter_new_cases target operator rest)
      as [[-> Ht] | [Hne E]]; [done|].
    rewrite E. split; [intros [? ?]; discriminate | done].
  - destruct (AdvancedFilter_new_cases target logicalOperator rest)
      as [[Hc Ht] | (_ & Hlen & E)].
    + split; [intros _ | done]. destruct Hc as [? | ?]; [done | done].
    + rewrite E. split; [intros [? ?]; discriminate|].
      intros [-> | ?]; simpl in *; lia.
  - done.
  - exact Hadv.
  - done.
  - by rewrite Hadv.
Qed.

Lemma guards_test_rest_arguments_witness :
  NonEmptyString (VStr "And")
  ∧ AdvancedFilter.new VNull (VStr "And") [VArr [VNull; VNull; VNull]]
    = Normal (advanced_filter VNull (VStr "And")
                (VArr [VNull; VNull; VNull])).
Proof.
  assert (Hop : NonEmptyString (VStr "And")).
  { exists "And". split; [reflexivity | discriminate]. }
  split; [exact Hop|].
  apply (guards_test_rest_arguments VNull (VStr "In") (VStr "And") []
           [VNull; VNull; VNull] Hop).
Defined.

(** ** The two ways to pass a payload *)

Lemma resolved_array (payload : list JsValue) :
  resolved [VArr payload] = VArr payload.
Proof. reflexivity. Qed.

(** The rest arguments are the payload unless the first of them is an
    array. *)
Lemma resolved_variadic (payload : list JsValue) :
  isArray (index payload 0) = false → resolved payload = VArr payload.
Proof. intros H. unfold resolved. by rewrite H. Qed.

Lemma isPrimitive_not_array (v : JsValue) :
  isPrimitive v = true → isArray v = false.
Proof. by destruct v. Qed.

Lemma isAdvancedFilterCondition_not_array (v : JsValue) :
  isAdvancedFilterCondition v = true → isArray v = false.
Proof. by destruct v. Qed.

Lemma head_not_array (P : JsValue → bool) (payload : list JsValue) :
  (∀ v, P v = true → isArray v = false) →
  Forall (λ v, P v = true) payload →
  isArray (index payload 0) = false.
Proof.
  intros HP Hall. destruct Hall as [|v payload Hv _]; [done|].
  by apply HP.
Qed.



(** ** The constructors on the repository's own examples *)

Example BasicFilter_values_as_arguments (target : JsValue) :
  Completion_map BasicFilter.values
    (BasicFilter.new target (VStr "In") [VNum 1; VNum 2])
  = Normal (VArr [VNum 1; VNum 2]).
Proof. reflexivity. Qed.

Example BasicFilter_values_as_array (target : JsValue) :
  Completion_map BasicFilter.values
    (BasicFilter.new target (VStr "In") [VArr [VNum 1; VNum 2]])
  = Normal (VArr [VNum 1; VNum 2]).
Proof. reflexivity. Qed.

Example BasicFilter_toJSON_example (target : JsValue) :
  Completion_map BasicFilter.toJSON
    (BasicFilter.new target (VStr "In") [VArr [VNum 1; VNum 2; VNum 3]])
  = Normal (<["$schema" := VStr "http://powerbi.com/product/schema#basic"]>
            (<["target" := target]>
             (<["operator" := VStr "In"]>
              (<["values" := VArr [VNum 1; VNum 2; VNum 3]]> ∅)))).
Proof.
  reflexivity.
Qed.

Example BasicFilter_no_values (target : JsValue) :
  BasicFilter.new target (VStr "In") []
  = Throw "values must be a non-empty array. You passed: ".
Proof. reflexivity. Qed.

Example AdvancedFilter_operator_not_a_string (target condition : JsValue) :
  AdvancedFilter.new target (VNum 1) [condition]
  = Throw "logicalOperator must be a valid operator, You passed: 1".
Proof. reflexivity. Qed.

Example AdvancedFilter_three_conditions (target c1 c2 c3 : JsValue) :
  AdvancedFilter.new target (VStr "And") [c1; c2; c3]
  = Throw "AdvancedFilters may not have more than two conditions. You passed: 3".
Proof. reflexivity. Qed.

Example getFilterType_empty_object : getFilterType ∅ = Unknown.
Proof. reflexivity. Qed.

(** The JSON of a constructed filter is classified by its class, provided
    a BasicFilter was given a string as operator. *)
Lemma getFilterType_BasicFilter_toJSON (target : JsValue) (op : string)
    (values : list JsValue) (filter : BasicFilter.t) :
  BasicFilter.new target (VStr op) values = Normal filter →
  getFilterType (BasicFilter.toJSON filter) = Basic.
Proof.
  intros Hnew.
  destruct (BasicFilter_new_cases target (VStr op) values)
    as [[_ [m Hm]] | [_ E]]; [congruence|].
  rewrite E in Hnew. injection Hnew as <-.
  unfold getFilterType, BasicFilter.toJSON, Filter.toJSON, basic_filter.
  cbn [BasicFilter.super BasicFilter.operator BasicFilter.values
       Filter.target Filter.schemaUrl].
  read_props. unfold resolved. by destruct (index values 0).
Qed.

(** X8.  The JSON of every constructed AdvancedFilter is classified
    [Advanced], whichever way the conditions were passed and however many
    the filter holds. *)
Lemma getFilterType_AdvancedFilter_toJSON (target logicalOperator : JsValue)
    (conditions : list JsValue) (filter : AdvancedFilter.t) :
  AdvancedFilter.new target logicalOperator conditions = Normal filter →
  getFilterType (AdvancedFilter.toJSON filter) = Advanced.
Proof.
  intros Hnew.
  destruct (AdvancedFilter_new_cases target logicalOperator conditions)
    as [[_ [m Hm]] | ((s & -> & Hs) & _ & E)]; [congruence|].
  rewrite E in Hnew. injection Hnew as <-.
  unfold getFilterType, AdvancedFilter.toJSON, Filter.toJSON,
    advanced_filter.
  cbn [AdvancedFilter.super AdvancedFilter.logicalOperator
       AdvancedFilter.conditions Filter.target Filter.schemaUrl].
  read_props. unfold resolved. by destruct (index conditions 0).
Qed.

(** * Further properties of the code *)

(** ** [normalizeError] on arbitrary records *)

Lemma append_nonempty (a b : string) : b ≠ "" → a +:+ b ≠ "".
Proof. intros Hb. destruct a; [done | discriminate]. Qed.

Lemma truthy_synthesized (path keyword : JsValue) :
  truthy (synthesized path keyword) = true.
Proof.
  unfold synthesized. simpl. apply negb_true_iff, String.eqb_neq.
  by apply append_nonempty.
Qed.

Lemma normalizeError_props_message (o : gmap string JsValue) :
  get (normalizeError_props o) "message"
  = if truthy (get o "message") then get o "message"
    else synthesized (get o "path") (get o "keyword").
Proof.
  destruct (truthy (get o "message")) eqn:Ht.
  - rewrite normalizeError_props_truthy by done.
    by rewrite !get_delete_ne.
  - rewrite normalizeError_props_falsy by done.
    by rewrite !get_delete_ne, get_insert_eq.
Qed.

Lemma normalizeError_props_truthy_message (o : gmap string JsValue) :
  truthy (get (normalizeError_props o) "message") = true.
Proof.
  rewrite normalizeError_props_message.
  destruct (truthy (get o "message")) eqn:Ht; [done|].
  apply truthy_synthesized.
Qed.

Lemma normalizeError_props_idemp (o : gmap string JsValue) :
  normalizeError_props (normalizeError_props o) = normalizeError_props o.
Proof.
  rewrite (normalizeError_props_truthy (normalizeError_props o))
    by apply normalizeError_props_truthy_message.
  assert (Hp : normalizeError_props o !! "path" = None).
  { unfold normalizeError_props.
    by rewrite lookup_delete_ne, lookup_delete_eq. }
  assert (Hk : normalizeError_props o !! "keyword" = None).
  { unfold normalizeError_props. by rewrite lookup_delete_eq. }
  rewrite (delete_id _ "path") by done. by rewrite delete_id.
Qed.

(** X1.  Whatever record [normalizeError] is given, the record it leaves
    has a truthy [message]: the one it had if that was truthy, the
    synthesized one otherwise.  No normalised error is without a
    message. *)
Theorem normalizeError_message_always_truthy
    (error : loc) (σ : gmap loc (gmap string JsValue))
    (o : gmap string JsValue) :
  σ !! error = Some o →
  ∃ o', (normalizeError error σ).2 !! error = Some o'
        ∧ truthy (get o' "message") = true
        ∧ get o' "message" ≠ VUndefined
        ∧ get o' "message"
          = if truthy (get o "message") then get o "message"
            else synthesized (get o "path") (get o "keyword").
Proof.
  intros Hσ. exists (normalizeError_props o).
  rewrite normalizeError_run. simpl.
  rewrite lookup_alter_eq, Hσ. split_and!.
  - done.
  - apply normalizeError_props_truthy_message.
  - intros Hu.
    assert (Ht := normalizeError_props_truthy_message o).
    by rewrite Hu in Ht.
  - apply normalizeError_props_message.
Qed.

Lemma normalizeError_message_always_truthy_witness :
  let σ : gmap loc (gmap string JsValue) := {[ 1%positive := ∅ ]} in
  σ !! 1%positive = Some ∅
  ∧ ∃ o', (normalizeError 1%positive σ).2 !! 1%positive = Some o'
          ∧ truthy (get o' "message") = true.
Proof.
  intros σ.
  assert (Hσ : σ !! 1%positive = Some ∅) by apply lookup_singleton_eq.
  split; [exact Hσ|].
  destruct (normalizeError_message_always_truthy 1%positive σ ∅ Hσ)
    as (o' & Ho' & Ht & _).
  exists o'. by split.
Defined.

(** X2.  [normalizeError] is idempotent: normalising a record a second time
    returns the same location and leaves the store as the first pass left
    it. *)
Theorem normalizeError_idempotent
    (error : loc) (σ : gmap loc (gmap string JsValue)) :
  normalizeError error (normalizeError error σ).2 = normalizeError error σ.
Proof.
  rewrite !normalizeError_run. simpl. f_equal.
  rewrite alter_alter_eq. apply alter_ext.
  intros o _. simpl. apply normalizeError_props_idemp.
Qed.

(** X6.  A record that has neither [path], [keyword] nor a truthy [message]
    is not rejected: the missing properties are printed as "undefined" in
    the message it receives, and its other properties stay. *)
Theorem normalizeError_missing_path_and_keyword
    (error : loc) (σ : gmap loc (gmap string JsValue))
    (o : gmap string JsValue) :
  σ !! error = Some o →
  o !! "path" = None →
  o !! "keyword" = None →
  truthy (get o "message") = false →
  normalizeError error σ
  = (error,
     <[error :=
         <["message" :=
             VStr "undefined is invalid. Not meeting undefined constraint"]>
           o]> σ).
Proof.
  intros Hσ Hp Hk Ht. rewrite normalizeError_run. f_equal.
  rewrite <- (insert_id σ error o Hσ) at 1.
  rewrite alter_insert_eq. f_equal.
  rewrite normalizeError_props_falsy by done.
  unfold get. rewrite Hp, Hk. simpl.
  rewrite !delete_id; [done | by rewrite lookup_insert_ne |].
  rewrite delete_id by (by rewrite lookup_insert_ne).
  by rewrite lookup_insert_ne.
Qed.

Lemma normalizeError_missing_path_and_keyword_witness :
  let σ : gmap loc (gmap string JsValue) := {[ 1%positive := ∅ ]} in
  σ !! 1%positive = Some ∅
  ∧ normalizeError 1%positive σ
    = (1%positive,
       <[1%positive :=
           <["message" :=
               VStr "undefined is invalid. Not meeting undefined constraint"]>
             ∅]> σ).
Proof.
  intros σ.
  assert (Hσ : σ !! 1%positive = Some ∅) by apply lookup_singleton_eq.
  split; [exact Hσ|].
  apply (normalizeError_missing_path_and_keyword 1%positive σ ∅ Hσ);
    reflexivity.
Defined.

(** ** What [validate] returns and what it does to the store *)

(** Normalising the reported records one after the other normalises each
    of them once, however often it is reported. *)
Lemma foldl_normalizeError_lookup (errors : list loc)
    (σ : gmap loc (gmap string JsValue)) (r : loc) :
  foldl (λ σ r, alter normalizeError_props r σ) σ errors !! r
  = if decide (r ∈ errors) then normalizeError_props <$> σ !! r
    else σ !! r.
Proof.
  revert σ. induction errors as [|e errors IH]; intros σ; [done|].
  simpl. rewrite IH.
  destruct (decide (r = e)) as [->|Hne].
  - rewrite lookup_alter_eq, (decide_True (P := e ∈ e :: errors))
      by apply list_elem_of_here.
    case_decide; [|done].
    destruct (σ !! e); [|done]. simpl.
    by rewrite normalizeError_props_idemp.
  - rewrite lookup_alter_ne by done.
    destruct (decide (r ∈ errors)) as [Hin|Hnin].
    + by rewrite decide_True by (by apply list_elem_of_further).
    + rewrite decide_False; [done|].
      intros [?|?]%elem_of_cons; done.
Qed.

(** X3.  [validate] returns [undefined] exactly when the evaluator's
    verdict is success; on failure it returns the evaluator's own error
    records, the same ones in the same order, none added and none
    dropped. *)
Theorem validate_returns_evaluator_errors
    (jsen : JsValue -> JsValue -> JsValue -> State (bool * list loc))
    (schema options x : JsValue) (σ : gmap loc (gmap string JsValue)) :
  (validate jsen schema options x σ).1
  = if (jsen schema options x σ).1.1 then None
    else Some (jsen schema options x σ).1.2.
Proof.
  rewrite validate_run.
  destruct (jsen schema options x σ) as [[isValid errors] σ'].
  by destruct isValid.
Qed.

(** X4.  After [validate], the store is the one the evaluator left, except
    that on failure every reported record has been normalised; a record
    reported several times is normalised as if reported once, a record
    that is not reported is untouched, and no record is added or
    removed. *)
Theorem validate_store
    (jsen : JsValue -> JsValue -> JsValue -> State (bool * list loc))
    (schema options x : JsValue) (σ : gmap loc (gmap string JsValue))
    (r : loc) :
  (validate jsen schema options x σ).2 !! r
  = (if (jsen schema options x σ).1.1 then (jsen schema options x σ).2 !! r
     else if decide (r ∈ (jsen schema options x σ).1.2)
          then normalizeError_props <$> (jsen schema options x σ).2 !! r
          else (jsen schema options x σ).2 !! r)
  ∧ dom (validate jsen schema options x σ).2
    = dom (jsen schema options x σ).2.
Proof.
  rewrite validate_run.
  destruct (jsen schema options x σ) as [[isValid errors] σ'].
  destruct isValid; simpl; [done|]. split.
  - apply foldl_normalizeError_lookup.
  - apply set_eq. intros l. rewrite !elem_of_dom.
    rewrite foldl_normalizeError_lookup.
    case_decide; [|done]. by rewrite fmap_is_Some.
Qed.

(** X5.  Every error record that [validate] returns has lost [path] and
    [keyword] and carries a truthy [message]: callers never see the
    evaluator's internals. *)
Theorem validate_strips_path_and_keyword
    (jsen : JsValue -> JsValue -> JsValue -> State (bool * list loc))
    (schema options x : JsValue) (σ : gmap loc (gmap string JsValue))
    (errors : list loc) (r : loc) (o' : gmap string JsValue) :
  (validate jsen schema options x σ).1 = Some errors →
  r ∈ errors →
  (validate jsen schema options x σ).2 !! r = Some o' →
  o' !! "path" = None ∧ o' !! "keyword" = None
  ∧ truthy (get o' "message") = true.
Proof.
  rewrite validate_run.
  destruct (jsen schema options x σ) as [[isValid reported] σ'].
  destruct isValid; simpl; [done|].
  intros [= <-] Hin. rewrite foldl_normalizeError_lookup.
  rewrite decide_True by done.
  destruct (σ' !! r) as [o|]; [|done]. simpl. intros [= <-].
  split_and!.
  - unfold normalizeError_props.
    by rewrite lookup_delete_ne, lookup_delete_eq.
  - unfold normalizeError_props. by rewrite lookup_delete_eq.
  - apply normalizeError_props_truthy_message.
Qed.

Lemma validate_strips_path_and_keyword_witness :
  let σ : gmap loc (gmap string JsValue) :=
    {[ 1%positive := IValidationError "/id" "type" None ]} in
  let o' : gmap string JsValue :=
    {[ "message" := VStr "/id is invalid. Not meeting type constraint" ]} in
  (validate repeating_evaluator VNull VNull VNull σ).1
  = Some [1%positive; 1%positive]
  ∧ 1%positive ∈ [1%positive; 1%positive]
  ∧ (validate repeating_evaluator VNull VNull VNull σ).2 !! 1%positive
    = Some o'
  ∧ o' !! "path" = None ∧ o' !! "keyword" = None
  ∧ truthy (get o' "message") = true.
Proof.
  intros σ o'.
  assert (H1 : (validate repeating_evaluator VNull VNull VNull σ).1
               = Some [1%positive; 1%positive]) by reflexivity.
  assert (H2 : 1%positive ∈ [1%positive; 1%positive])
    by apply list_elem_of_here.
  assert (H3 : (validate repeating_evaluator VNull VNull VNull σ).2
               !! 1%positive = Some o') by reflexivity.
  refine (conj H1 (conj H2 (conj H3 _))).
  apply (validate_strips_path_and_keyword repeating_evaluator
           VNull VNull VNull σ [1%positive; 1%positive] 1%positive o'
           H1 H2 H3).
Defined.

(** ** Constructed filters *)

Lemma Normal_inj {A : Type} (a b : A) : Normal a = Normal b → a = b.
Proof. by intros [= ->]. Qed.

Lemma BasicFilter_new_Normal (target operator : JsValue)
    (rest : list JsValue) (filter : BasicFilter.t) :
  BasicFilter.new target operator rest = Normal filter →
  rest ≠ [] ∧ filter = basic_filter target operator (resolved rest).
Proof.
  intros Hnew.
  destruct (BasicFilter_new_cases target operator rest)
    as [[_ [m Hm]] | [Hne E]]; [congruence|].
  rewrite E in Hnew. split; [done | by apply Normal_inj in Hnew].
Qed.

Lemma AdvancedFilter_new_Normal (target logicalOperator : JsValue)
    (rest : list JsValue) (filter : AdvancedFilter.t) :
  AdvancedFilter.new target logicalOperator rest = Normal filter →
  NonEmptyString logicalOperator
  ∧ (1 ≤ length rest ≤ 2)%nat
  ∧ filter = advanced_filter target logicalOperator (resolved rest).
Proof.
  intros Hnew.
  destruct (AdvancedFilter_new_cases target logicalOperator rest)
    as [[_ [m Hm]] | (Hlo & Hlen & E)]; [congruence|].
  rewrite E in Hnew. split_and!; try done; try lia.
  by apply Normal_inj in Hnew.
Qed.

Lemma resolved_is_array (rest : list JsValue) : IsArray (resolved rest).
Proof.
  unfold resolved, IsArray.
  destruct (index rest 0) eqn:E; simpl; eauto.
Qed.

(** X7.  The JSON of a constructed BasicFilter is classified [Basic] when
    the operator it was given is a string and [Unknown] when it is not:
    the constructor accepts any operator, and [getFilterType] never
    mistakes a BasicFilter for an advanced one. *)
Theorem getFilterType_BasicFilter_by_operator
    (target operator : JsValue) (rest : list JsValue)
    (filter : BasicFilter.t) :
  BasicFilter.new target operator rest = Normal filter →
  (IsString operator → getFilterType (BasicFilter.toJSON filter) = Basic)
  ∧ (¬ IsString operator →
     getFilterType (BasicFilter.toJSON filter) = Unknown).
Proof.
  intros [_ ->]%BasicFilter_new_Normal.
  unfold getFilterType, BasicFilter.toJSON, Filter.toJSON, basic_filter.
  cbn [BasicFilter.super BasicFilter.operator BasicFilter.values
       Filter.target Filter.schemaUrl].
  read_props.
  destruct (resolved_is_array rest) as [a ->]. split.
  - by intros [s ->].
  - intros Hop. destruct operator; try done. destruct Hop. by eexists.
Qed.

Lemma getFilterType_BasicFilter_by_operator_witness :
  BasicFilter.new VNull (VNum 1) [VStr "a"]
  = Normal (basic_filter VNull (VNum 1) (VArr [VStr "a"]))
  ∧ getFilterType
      (BasicFilter.toJSON (basic_filter VNull (VNum 1) (VArr [VStr "a"])))
    = Unknown.
Proof.
  assert (Hnew : BasicFilter.new VNull (VNum 1) [VStr "a"]
                 = Normal (basic_filter VNull (VNum 1) (VArr [VStr "a"])))
    by reflexivity.
  split; [exact Hnew|].
  apply (getFilterType_BasicFilter_by_operator VNull (VNum 1) [VStr "a"]
           _ Hnew).
  intros [s Hs]. discriminate Hs.
Defined.

Lemma getFilterType_AdvancedFilter_toJSON_witness :
  AdvancedFilter.new VNull (VStr "And") [VArr []]
  = Normal (advanced_filter VNull (VStr "And") (VArr []))
  ∧ getFilterType
      (AdvancedFilter.toJSON (advanced_filter VNull (VStr "And") (VArr [])))
    = Advanced.
Proof.
  assert (Hnew : AdvancedFilter.new VNull (VStr "And") [VArr []]
                 = Normal (advanced_filter VNull (VStr "And") (VArr [])))
    by reflexivity.
  split; [exact Hnew|].
  apply (getFilterType_AdvancedFilter_toJSON VNull (VStr "And") [VArr []]
           _ Hnew).
Defined.

(** X9.  The JSON of a constructed BasicFilter has exactly the properties
    [$schema], [target], [operator] and [values]; [$schema] is the basic
    schema address, [target] and [operator] read back as given, and
    [values] is the payload the constructor settled on. *)
Theorem BasicFilter_toJSON_reads_back
    (target operator : JsValue) (rest : list JsValue)
    (filter : BasicFilter.t) :
  BasicFilter.new target operator rest = Normal filter →
  dom (BasicFilter.toJSON filter)
  = {["$schema"; "target"; "operator"; "values"]}
  ∧ get (BasicFilter.toJSON filter) "$schema"
    = VStr "http://powerbi.com/product/schema#basic"
  ∧ get (BasicFilter.toJSON filter) "target" = target
  ∧ get (BasicFilter.toJSON filter) "operator" = operator
  ∧ get (BasicFilter.toJSON filter) "values"
    = (if isArray (index rest 0) then index rest 0 else VArr rest).
Proof.
  intros [_ ->]%BasicFilter_new_Normal.
  unfold BasicFilter.toJSON, Filter.toJSON, basic_filter.
  cbn [BasicFilter.super BasicFilter.operator BasicFilter.values
       Filter.target Filter.schemaUrl].
  split_and!; [|by read_props..].
  rewrite !dom_insert_L, dom_empty_L. set_solver.
Qed.

Lemma BasicFilter_toJSON_reads_back_witness :
  BasicFilter.new VNull (VStr "In") [VNum 1; VNum 2]
  = Normal (basic_filter VNull (VStr "In") (VArr [VNum 1; VNum 2]))
  ∧ get (BasicFilter.toJSON
           (basic_filter VNull (VStr "In") (VArr [VNum 1; VNum 2])))
      "values"
    = VArr [VNum 1; VNum 2].
Proof.
  assert (Hnew : BasicFilter.new VNull (VStr "In") [VNum 1; VNum 2]
                 = Normal (basic_filter VNull (VStr "In")
                             (VArr [VNum 1; VNum 2])))
    by reflexivity.
  split; [exact Hnew|].
  apply (BasicFilter_toJSON_reads_back VNull (VStr "In") [VNum 1; VNum 2]
           _ Hnew).
Defined.

(** X10.  The JSON of a constructed AdvancedFilter has exactly the
    properties [$schema], [target], [logicalOperator] and [conditions];
    [$schema] is the advanced schema address, [target] and
    [logicalOperator] read back as given, and [conditions] is the payload
    the constructor settled on. *)
Theorem AdvancedFilter_toJSON_reads_back
    (target logicalOperator : JsValue) (rest : list JsValue)
    (filter : AdvancedFilter.t) :
  AdvancedFilter.new target logicalOperator rest = Normal filter →
  dom (AdvancedFilter.toJSON filter)
  = {["$schema"; "target"; "logicalOperator"; "conditions"]}
  ∧ get (AdvancedFilter.toJSON filter) "$schema"
    = VStr "http://powerbi.com/product/schema#advanced"
  ∧ get (AdvancedFilter.toJSON filter) "target" = target
  ∧ get (AdvancedFilter.toJSON filter) "logicalOperator" = logicalOperator
  ∧ get (AdvancedFilter.toJSON filter) "conditions"
    = (if isArray (index rest 0) then index rest 0 else VArr rest).
Proof.
  intros (_ & _ & ->)%AdvancedFilter_new_Normal.
  unfold AdvancedFilter.toJSON, Filter.toJSON, advanced_filter.
  cbn [AdvancedFilter.super AdvancedFilter.logicalOperator
       AdvancedFilter.conditions Filter.target Filter.schemaUrl].
  split_and!; [|by read_props..].
  rewrite !dom_insert_L, dom_empty_L. set_solver.
Qed.

Lemma AdvancedFilter_toJSON_reads_back_witness :
  AdvancedFilter.new VNull (VStr "Or") [VNull]
  = Normal (advanced_filter VNull (VStr "Or") (VArr [VNull]))
  ∧ get (AdvancedFilter.toJSON
           (advanced_filter VNull (VStr "Or") (VArr [VNull])))
      "logicalOperator"
    = VStr "Or".
Proof.
  assert (Hnew : AdvancedFilter.new VNull (VStr "Or") [VNull]
                 = Normal (advanced_filter VNull (VStr "Or") (VArr [VNull])))
    by reflexivity.
  split; [exact Hnew|].
  apply (AdvancedFilter_toJSON_reads_back VNull (VStr "Or") [VNull]
           _ Hnew).
Defined.

(** ** The errors the constructors throw *)

Lemma Throw_inj {A : Type} (m m' : string) :
  @Throw A m = Throw m' ↔ m = m'.
Proof. split; [by intros [= ->] | by intros ->]. Qed.

(** X11.  The constructors' errors, message by message, for a logical
    operator in the range where [ToString] is exact (a string, a boolean,
    [null], [undefined], an integer below 2^53 in magnitude, an object
    without a [toString] of its own, an array of such).
    [new BasicFilter] throws only for an empty list of rest arguments,
    and the text it interpolates after "You passed: " is then empty.
    [new AdvancedFilter] tests the logical operator first, so an invalid
    operator is the error reported whatever the conditions are; then the
    empty list, again with nothing after "You passed: "; then a list of
    more than two, reported with its length. *)
Theorem constructor_error_messages
    (target operator logicalOperator : JsValue) (rest : list JsValue)
    (m : string) :
  ToString_exact logicalOperator = true →
  (BasicFilter.new target operator rest = Throw m
   ↔ rest = [] ∧ m = "values must be a non-empty array. You passed: ")
  ∧ (AdvancedFilter.new target logicalOperator rest = Throw m
     ↔ (¬ NonEmptyString logicalOperator
        ∧ m = "logicalOperator must be a valid operator, You passed: "
              +:+ ToString logicalOperator)
       ∨ (NonEmptyString logicalOperator ∧ rest = []
          ∧ m = "conditions must be a non-empty array. You passed: ")
       ∨ (NonEmptyString logicalOperator ∧ (2 < length rest)%nat
          ∧ m = "AdvancedFilters may not have more than two conditions. You passed: "
                +:+ pretty (length rest))).
Proof.
  intros _. split.
  - unfold BasicFilter.new. destruct rest as [|v rest]; simpl.
    + rewrite Throw_inj. naive_solver.
    + split; [discriminate | intros [? _]; discriminate].
  - assert (Hlo := invalid_logicalOperator_iff logicalOperator).
    unfold AdvancedFilter.new.
    destruct (AdvancedFilter.invalid_logicalOperator logicalOperator).
    { assert (Hno : ¬ NonEmptyString logicalOperator).
      { intros H. apply Hlo in H. discriminate. }
      rewrite Throw_inj. naive_solver. }
    assert (Hyes : NonEmptyString logicalOperator) by by apply Hlo.
    destruct rest as [|c1 [|c2 [|c3 rest]]].
    + cbn [length Nat.eqb]. rewrite Throw_inj. simpl. split.
      * intros <-. right; left. done.
      * intros [[? _] | [(_ & _ & ->) | (_ & ? & _)]];
          [done | done | simpl in *; lia].
    + simpl. split; [discriminate|].
      intros [[? _] | [(_ & ? & _) | (_ & ? & _)]];
        [done | done | simpl in *; lia].
    + simpl. split; [discriminate|].
      intros [[? _] | [(_ & ? & _) | (_ & ? & _)]];
        [done | done | simpl in *; lia].
    + cbn [length Nat.eqb Nat.ltb Nat.leb]. rewrite Throw_inj. split.
      * intros <-. right; right. split_and!; [done | simpl; lia | done].
      * intros [[? _] | [(_ & ? & _) | (_ & _ & ->)]]; done.
Qed.

Lemma constructor_error_messages_witness :
  ToString_exact (VNum 1) = true
  ∧ AdvancedFilter.new VNull (VNum 1) []
    = Throw "logicalOperator must be a valid operator, You passed: 1".
Proof.
  assert (Hexact : ToString_exact (VNum 1) = true) by reflexivity.
  split; [exact Hexact|].
  destruct (constructor_error_messages VNull VNull (VNum 1) []
              "logicalOperator must be a valid operator, You passed: 1"
              Hexact) as [_ [_ Hthrow]].
  apply Hthrow. left. split; [|reflexivity].
  intros (s & Hs & _). discriminate Hs.
Defined.

(** X12.  Once the first rest argument is an array, the arguments after it
    never reach the filter: a BasicFilter takes the array as its values
    whatever follows, an AdvancedFilter does so with one argument
    following, and with two or more following it throws, whatever the
    array holds. *)
Theorem arguments_after_an_array_are_dropped
    (target operator logicalOperator : JsValue)
    (payload more : list JsValue) (extra e1 e2 : JsValue) :
  NonEmptyString logicalOperator →
  BasicFilter.new target operator (VArr payload :: more)
  = Normal (basic_filter target operator (VArr payload))
  ∧ AdvancedFilter.new target logicalOperator [VArr payload; extra]
    = Normal (advanced_filter target logicalOperator (VArr payload))
  ∧ throws (AdvancedFilter.new target logicalOperator
              (VArr payload :: e1 :: e2 :: more)).
Proof.
  intros Hlo. apply invalid_logicalOperator_iff in Hlo.
  unfold AdvancedFilter.new. rewrite Hlo. split_and!.
  - done.
  - done.
  - by eexists.
Qed.

Lemma arguments_after_an_array_are_dropped_witness :
  NonEmptyString (VStr "And")
  ∧ BasicFilter.new VNull (VStr "In") [VArr [VNum 1]; VNum 2; VNum 3]
    = Normal (basic_filter VNull (VStr "In") (VArr [VNum 1])).
Proof.
  assert (Hop : NonEmptyString (VStr "And")).
  { exists "And". split; [reflexivity | discriminate]. }
  split; [exact Hop|].
  apply (arguments_after_an_array_are_dropped VNull (VStr "In") (VStr "And")
           [VNum 1] [VNum 2; VNum 3] VNull VNull VNull Hop).
Defined.

(** ** What a constructed filter holds *)

(** X13.  A constructed BasicFilter always holds an array as [values],
    whichever way the payload was passed; when the first rest argument is
    not an array, the values are the rest arguments themselves and there
    is at least one. *)
Theorem BasicFilter_values_invariant
    (target operator : JsValue) (rest : list JsValue)
    (filter : BasicFilter.t) :
  BasicFilter.new target operator rest = Normal filter →
  IsArray (BasicFilter.values filter)
  ∧ (isArray (index rest 0) = false →
     BasicFilter.values filter = VArr rest ∧ (1 ≤ length rest)%nat).
Proof.
  intros [Hne ->]%BasicFilter_new_Normal. simpl. split.
  - apply resolved_is_array.
  - intros Hhead. split; [by apply resolved_variadic|].
    destruct rest; [done | simpl; lia].
Qed.

Lemma BasicFilter_values_invariant_witness :
  BasicFilter.new VNull (VStr "In") [VStr "x"; VStr "y"]
  = Normal (basic_filter VNull (VStr "In") (VArr [VStr "x"; VStr "y"]))
  ∧ IsArray (BasicFilter.values
               (basic_filter VNull (VStr "In") (VArr [VStr "x"; VStr "y"]))).
Proof.
  assert (Hnew : BasicFilter.new VNull (VStr "In") [VStr "x"; VStr "y"]
                 = Normal (basic_filter VNull (VStr "In")
                             (VArr [VStr "x"; VStr "y"])))
    by reflexivity.
  split; [exact Hnew|].
  apply (BasicFilter_values_invariant VNull (VStr "In")
           [VStr "x"; VStr "y"] _ Hnew).
Defined.

(** X14.  A constructed AdvancedFilter always holds a non-empty string as
    [logicalOperator] and an array as [conditions]; when the first rest
    argument is not an array, the conditions are the rest arguments
    themselves and there are one or two of them. *)
Theorem AdvancedFilter_invariant
    (target logicalOperator : JsValue) (rest : list JsValue)
    (filter : AdvancedFilter.t) :
  AdvancedFilter.new target logicalOperator rest = Normal filter →
  NonEmptyString (AdvancedFilter.logicalOperator filter)
  ∧ IsArray (AdvancedFilter.conditions filter)
  ∧ (isArray (index rest 0) = false →
     AdvancedFilter.conditions filter = VArr rest
     ∧ (1 ≤ length rest ≤ 2)%nat).
Proof.
  intros (Hlo & Hlen & ->)%AdvancedFilter_new_Normal. simpl. split_and!.
  - done.
  - apply resolved_is_array.
  - intros Hhead. split; [by apply resolved_variadic | lia].
Qed.

Lemma AdvancedFilter_invariant_witness :
  AdvancedFilter.new VNull (VStr "And") [VNull; VNull]
  = Normal (advanced_filter VNull (VStr "And") (VArr [VNull; VNull]))
  ∧ NonEmptyString
      (AdvancedFilter.logicalOperator
         (advanced_filter VNull (VStr "And") (VArr [VNull; VNull]))).
Proof.
  assert (Hnew : AdvancedFilter.new VNull (VStr "And") [VNull; VNull]
                 = Normal (advanced_filter VNull (VStr "And")
                             (VArr [VNull; VNull])))
    by reflexivity.
  split; [exact Hnew|].
  apply (AdvancedFilter_invariant VNull (VStr "And") [VNull; VNull]
           _ Hnew).
Defined.

(** ** Targets of the declared shapes *)

Lemma get_outside_dom (o : gmap string JsValue) (k : string) :
  k ∉ dom o → get o k = VUndefined.
Proof. intros H%not_elem_of_dom. unfold get. by rewrite H. Qed.

Lemma IsString_defined (v : JsValue) :
  IsString v → negb (is_undefined v) = true.
Proof. by intros [s ->]. Qed.

(** X15.  On a target of a declared shape exactly one predicate holds: a
    column target is a column and neither a measure nor a hierarchy, and
    likewise for a measure target and for a hierarchy target. *)
Theorem target_shapes_are_exclusive (arg : gmap string JsValue) :
  (IFilterColumnTarget arg →
   isColumn arg = true ∧ isMeasure arg = false ∧ isHierarchy arg = false)
  ∧ (IFilterMeasureTarget arg →
     isMeasure arg = true ∧ isColumn arg = false
     ∧ isHierarchy arg = false)
  ∧ (IFilterHierarchyTarget arg →
     isHierarchy arg = true ∧ isColumn arg = false
     ∧ isMeasure arg = false).
Proof.
  unfold isColumn, isMeasure, isHierarchy. split_and!.
  - intros (Hdom & Ht & Hc).
    rewrite (get_outside_dom arg "measure"),
      (get_outside_dom arg "hierarchy") by (rewrite Hdom; set_solver).
    rewrite !IsString_defined by done. done.
  - intros (Hdom & Ht & Hm).
    rewrite (get_outside_dom arg "column"),
      (get_outside_dom arg "hierarchy") by (rewrite Hdom; set_solver).
    rewrite !IsString_defined by done. done.
  - intros (Hdom & Ht & Hh & Hl).
    rewrite (get_outside_dom arg "column"),
      (get_outside_dom arg "measure") by (rewrite Hdom; set_solver).
    rewrite !IsString_defined by done. done.
Qed.

Lemma target_shapes_are_exclusive_witness :
  let arg : gmap string JsValue :=
    <["table" := VStr "t"]> (<["column" := VStr "c"]> ∅) in
  IFilterColumnTarget arg
  ∧ isColumn arg = true ∧ isMeasure arg = false ∧ isHierarchy arg = false.
Proof.
  intros arg.
  assert (Hshape : IFilterColumnTarget arg).
  { split_and!.
    - unfold arg. rewrite !dom_insert_L, dom_empty_L. set_solver.
    - exists "t". reflexivity.
    - exists "c". reflexivity. }
  split; [exact Hshape|].
  destruct (target_shapes_are_exclusive arg) as (Hcol & _ & _).
  exact (Hcol Hshape).
Defined.
